(** * Validation of agent-pool-only cluster properties (API v20170831)

    A shallow embedding of [pkg/api/agentPoolOnlyApi/v20170831/validate.go]
    and the properties of its validators.

    Go strings are byte sequences: they are [string]s here, one [ascii] per
    byte.  A Go function returning [error] either returns [nil], returns an
    error value, or panics at run time; the three cases are the constructors
    of [result].  Go maps are stdpp [gmap]s. *)

From Stdlib Require Import ZArith Ascii String DecimalString.
From stdpp Require Import base option list gmap strings.

Open Scope string_scope.
Open Scope Z_scope.

(** ** Results of a Go function of type [func(...) error] *)

Inductive panic_kind :=
| IndexOutOfRange      (* e[0] on an empty slice *)
| TypeAssertionFailed. (* x.(T) on a value whose dynamic type is not T *)

Inductive result :=
| Nil                       (* return nil *)
| Error (msg : string)      (* return errors.New(msg) / errors.Errorf(...) *)
| Panic (k : panic_kind).   (* run-time panic, nothing is returned *)

(** Sequencing of checks written [if e := f(); e != nil { return e }]. *)
Definition and_then (r : result) (k : result) : result :=
  match r with
  | Nil => k
  | _ => r
  end.

Notation "r ;;; k" := (and_then r k) (at level 62, right associativity).

(** ** Library functions of package [strings] and of [fmt] *)

(** [strings.HasPrefix]: [len(s) >= len(prefix) && s[0:len(prefix)] == prefix]. *)
Definition HasPrefix (s prefix : string) : bool :=
  (String.length prefix <=? String.length s)%nat
  && String.eqb (substring 0 (String.length prefix) s) prefix.

(** [strings.HasSuffix]:
    [len(s) >= len(suffix) && s[len(s)-len(suffix):] == suffix]. *)
Definition HasSuffix (s suffix : string) : bool :=
  (String.length suffix <=? String.length s)%nat
  && String.eqb
       (substring (String.length s - String.length suffix)
                  (String.length suffix) s)
       suffix.

(** The verb [%d] applied to an [int]: signed decimal digits. *)
Definition fmt_d (n : Z) : string := NilZero.string_of_int (Z.to_int n).

(** ** Regular expressions, as far as [poolNameRegex] needs them

    Package [regexp] reads the text as UTF-8 runes.  The classes of
    [poolNameRegex] hold ASCII characters only, and its match spans the
    whole text, so matching byte by byte decides the same texts: a byte
    outside ASCII is in no class, like the rune it belongs to. *)

Inductive regex :=
| ReNone                                   (* matches no text *)
| ReEps                                    (* matches the empty text *)
| ReClass (ranges : list (ascii * ascii))  (* [lo-hi...] *)
| ReCat (r1 r2 : regex)                    (* r1 r2 *)
| ReAlt (r1 r2 : regex)                    (* r1|r2 *)
| ReRepeat (lo hi : nat) (r : regex)       (* r{lo,hi} *)
| ReGroup (r : regex).                     (* (r), a capturing group *)

Definition in_range (c : ascii) (rg : ascii * ascii) : bool :=
  (nat_of_ascii (fst rg) <=? nat_of_ascii c)%nat
  && (nat_of_ascii c <=? nat_of_ascii (snd rg))%nat.

Definition in_class (ranges : list (ascii * ascii)) (c : ascii) : bool :=
  existsb (in_range c) ranges.

Fixpoint nullable (r : regex) : bool :=
  match r with
  | ReNone => false
  | ReEps => true
  | ReClass _ => false
  | ReCat r1 r2 => nullable r1 && nullable r2
  | ReAlt r1 r2 => nullable r1 || nullable r2
  | ReRepeat lo _ r => (lo =? 0)%nat || nullable r
  | ReGroup r => nullable r
  end.

(** The residual of [r] after reading the byte [c]. *)
Fixpoint deriv (c : ascii) (r : regex) : regex :=
  match r with
  | ReNone => ReNone
  | ReEps => ReNone
  | ReClass ranges => if in_class ranges c then ReEps else ReNone
  | ReCat r1 r2 =>
      if nullable r1
      then ReAlt (ReCat (deriv c r1) r2) (deriv c r2)
      else ReCat (deriv c r1) r2
  | ReAlt r1 r2 => ReAlt (deriv c r1) (deriv c r2)
  | ReRepeat lo hi r =>
      match hi with
      | O => ReNone
      | S hi' => ReCat (deriv c r) (ReRepeat (Nat.pred lo) hi' r)
      end
  | ReGroup r => deriv c r
  end.

(** Does the whole text [s] match [r]? *)
Fixpoint re_match (r : regex) (s : string) : bool :=
  match s with
  | EmptyString => nullable r
  | String c s' => re_match (deriv c r) s'
  end.

(** [Regexp.FindStringSubmatch] for a pattern [^r$].  Both anchors are
    text anchors (no [m] flag), so a match is the whole text.  The result
    is [nil] when there is no match; otherwise it holds the match followed
    by the text of each capturing group.  Only an outermost group is
    reported: it captures the whole match. *)
Definition FindStringSubmatch (r : regex) (s : string) : list string :=
  if re_match r s
  then s :: match r with ReGroup _ => [s] | _ => [] end
  else [].

(** ** The data model read by the validators (declared in types.go) *)

Record AgentPoolProfile := {
  Name : string;
  Count : Z;
  VMSize : string;
  OSDiskSizeGB : Z;
  StorageProfile : string;
  VnetSubnetID : string
}.

Record PublicKey := { KeyData : string }.

Record SSHConfig := { PublicKeys : list PublicKey }.

Record LinuxProfile := { SSH : SSHConfig }.

Record ServicePrincipalProfile := { ClientID : string; Secret : string }.

Record WindowsProfile := { AdminUsername : string; AdminPassword : string }.

(** The three profiles are pointers in Go; [None] is the [nil] pointer.
    The elements of [AgentPoolProfiles] are pointers too; the validators
    dereference them without a test, so they are the profiles themselves. *)
Record Properties := {
  DNSPrefix : string;
  AgentPoolProfiles : list AgentPoolProfile;
  LinuxProfilePtr : option LinuxProfile;
  ServicePrincipalProfilePtr : option ServicePrincipalProfile;
  WindowsProfilePtr : option WindowsProfile
}.

(** Modelled from the spec: [AgentPoolProfile.IsCustomVNET] is declared in
    types.go, which is not part of the sources at hand; a pool is custom-VNET
    when its [vnetSubnetID] is non-empty. *)
Definition IsCustomVNET (a : AgentPoolProfile) : bool :=
  (0 <? String.length (VnetSubnetID a))%nat.

(** ** Violations reported by the field constraint engine (validator.v9) *)

(** The value of a violation has type [interface{}]. *)
Inductive value :=
| VInt (n : Z)                 (* dynamic type int *)
| VString (s : string)         (* dynamic type string *)
| VBool (b : bool)             (* dynamic type bool *)
| VNil                         (* the nil interface *)
| VOther (type_name : string). (* any other dynamic type *)

Record FieldError := { Namespace : string; Value : value }.

Definition ValidationErrors := list FieldError.

(** [validate.Var(field, "required")] on a string: the tag [required] fails
    exactly on the zero value of the type, the empty string.  [true] stands
    for a non-nil error. *)
Definition validate_Var_required (field : string) : bool :=
  String.eqb field "".

(** ** validate.go *)

(** [poolNameRegex := `^([a-z][a-z0-9]{0,11})$`] *)
Definition poolNameRegex : regex :=
  ReGroup
    (ReCat (ReClass [("a", "z")%char])
           (ReRepeat 0 11 (ReClass [("a", "z")%char; ("0", "9")%char]))).

(** [regexp.Compile] succeeds on [poolNameRegex], so [err] is [nil] and the
    first [return err] is not taken. *)
Definition validatePoolName (poolName : string) : result :=
  let submatches := FindStringSubmatch poolNameRegex poolName in
  if negb (length submatches =? 2)%nat
  then Error ("pool name '" +:+ poolName +:+
              "' is invalid. A pool name must start with a lowercase letter, have max length of 12, and only have characters a-z0-9")
  else Nil.

(** [AgentPoolProfile.Validate] *)
Definition AgentPoolProfile_Validate (a : AgentPoolProfile) : result :=
  validatePoolName (Name a).

(** [LinuxProfile.Validate]: [l.SSH.PublicKeys[0]] panics on an empty
    slice. *)
Definition LinuxProfile_Validate (l : LinuxProfile) : result :=
  match PublicKeys (SSH l) with
  | [] => Panic IndexOutOfRange
  | key0 :: _ =>
      if validate_Var_required (KeyData key0)
      then Error "KeyData in LinuxProfile.SSH.PublicKeys cannot be empty string"
      else Nil
  end.

(** The loop of [validateUniqueProfileNames]; [profileNames] is the map of
    the names seen so far. *)
Fixpoint uniqueNamesLoop (profileNames : gmap string bool)
    (profiles : list AgentPoolProfile) : result :=
  match profiles with
  | [] => Nil
  | profile :: rest =>
      match profileNames !! Name profile with
      | Some _ =>
          Error ("profile name '" +:+ Name profile +:+
                 "' already exists, profile names must be unique across pools")
      | None => uniqueNamesLoop (<[Name profile := true]> profileNames) rest
      end
  end.

Definition validateUniqueProfileNames (profiles : list AgentPoolProfile) : result :=
  uniqueNamesLoop ∅ profiles.

(** The loop [for _, agentPoolProfile := range a.AgentPoolProfiles] of
    [Properties.Validate]. *)
Fixpoint validatePoolsLoop (profiles : list AgentPoolProfile) : result :=
  match profiles with
  | [] => Nil
  | agentPoolProfile :: rest =>
      AgentPoolProfile_Validate agentPoolProfile ;;; validatePoolsLoop rest
  end.

(** The first loop of [validateVNET], on the pair
    [(customVNETCount, isCustomVNET)].  The count never exceeds the length
    of the slice, which is an [int], so [customVNETCount++] does not wrap. *)
Fixpoint classifyLoop (pools : list AgentPoolProfile) (st : Z * bool) : Z * bool :=
  match pools with
  | [] => st
  | agentPool :: rest =>
      classifyLoop rest
        (if IsCustomVNET agentPool
         then (fst st + 1, IsCustomVNET agentPool)
         else st)
  end.

(** The three maps filled by the second loop of [validateVNET]. *)
Record vnetMaps := {
  subIDMap : gmap string Z;
  resourceGroupMap : gmap string Z;
  agentVNETMap : gmap string Z
}.

Definition emptyMaps : vnetMaps :=
  {| subIDMap := ∅; resourceGroupMap := ∅; agentVNETMap := ∅ |}.

(** [m[k] = m[k] + 1]; reading a missing key gives the zero value. *)
Definition increment (m : gmap string Z) (k : string) : gmap string Z :=
  <[k := default 0 (m !! k) + 1]> m.

Definition mixedVNETError : string :=
  "Multiple VNET Subnet configurations specified.  Each agent pool profile must all specify a custom VNET Subnet, or none at all".

(** ** Stand-ins for the collaborators

    The validators below are parameterised by the constraint engine, the
    DNS-prefix check and the resource-identifier decomposer, and the
    theorems hold for every choice of them.  The stand-ins of this section
    only serve to run the validators on concrete configurations. *)

Fixpoint split_slash (s : string) : list string :=
  match s with
  | EmptyString => [""]
  | String c s' =>
      if Ascii.eqb c "/" then "" :: split_slash s'
      else match split_slash s' with
           | [] => [String c ""]
           | w :: ws => String c w :: ws
           end
  end.

Definition sample_decompose (id : string)
    : string * string * string * string * option string :=
  let failure := ("", "", "", "", Some "Unable to parse vnetSubnetID") in
  match split_slash id with
  | [e; k1; sub; k2; rg; k3; provider; k4; vnet; k5; subnet] =>
      if String.eqb e "" && String.eqb k1 "subscriptions"
         && String.eqb k2 "resourceGroups" && String.eqb k3 "providers"
         && String.eqb provider "Microsoft.Network"
         && String.eqb k4 "virtualNetworks" && String.eqb k5 "subnets"
      then (sub, rg, vnet, subnet, None)
      else failure
  | _ => failure
  end.


Definition sample_dns (prefix : string) : option string :=
  if String.eqb prefix "" then Some "DNSPrefix '' is invalid" else None.

Definition sample_fmt_errors (e : ValidationErrors) : string :=
  String.concat "; " (map Namespace e).

(** A small constraint engine: every pool needs a [vmSize] and a [count]
    between 1 and 100; the violations come in pool order. *)
Fixpoint sample_pool_violations (i : Z) (pools : list AgentPoolProfile)
    : ValidationErrors :=
  match pools with
  | [] => []
  | p :: rest =>
      let ns := "Properties.AgentPoolProfiles[" +:+ fmt_d i +:+ "]" in
      ((if String.eqb (VMSize p) ""
        then [{| Namespace := ns +:+ ".VMSize"; Value := VString "" |}]
        else [])
       ++ (if (Count p <? 1) || (100 <? Count p)
           then [{| Namespace := ns +:+ ".Count"; Value := VInt (Count p) |}]
           else [])
       ++ sample_pool_violations (i + 1) rest)%list
  end.

Definition sample_engine (a : Properties) : option ValidationErrors :=
  match sample_pool_violations 0 (AgentPoolProfiles a) with
  | [] => None
  | e => Some e
  end.

Definition sample_pool (name subnet : string) : AgentPoolProfile :=
  {| Name := name; Count := 3; VMSize := "Standard_D2_v2"; OSDiskSizeGB := 0;
     StorageProfile := "ManagedDisks"; VnetSubnetID := subnet |}.

Definition sample_properties (pools : list AgentPoolProfile)
    (linux : option LinuxProfile) : Properties :=
  {| DNSPrefix := "agents"; AgentPoolProfiles := pools;
     LinuxProfilePtr := linux; ServicePrincipalProfilePtr := None;
     WindowsProfilePtr := None |}.

Definition subnet_of (sub rg vnet subnet : string) : string :=
  "/subscriptions/" +:+ sub +:+ "/resourceGroups/" +:+ rg +:+
  "/providers/Microsoft.Network/virtualNetworks/" +:+ vnet +:+
  "/subnets/" +:+ subnet.

Section Validators.

Set Default Proof Using "Type".

(** The constants of const.go. *)
Variables MinAgentCount MaxAgentCount MinDiskSizeGB MaxDiskSizeGB : Z.
Variable ManagedDisks : string.

(** The verb [%+v] applied to a [validator.ValidationErrors]. *)
Variable fmt_errors : ValidationErrors -> string.

(** [validate.Struct(a)] on a non-nil [a]: [None] is a nil error, [Some e]
    the violations, so that [e.(validator.ValidationErrors)] succeeds. *)
Variable validate_Struct : Properties -> option ValidationErrors.

(** [common.ValidateDNSPrefix]: [None] is a nil error. *)
Variable ValidateDNSPrefix : string -> option string.

(** [common.GetVNETSubnetIDComponents]: subscription, resource group,
    network, subnet and the error. *)
Variable GetVNETSubnetIDComponents :
  string -> string * string * string * string * option string.

Definition notCaught (ns : string) (e : ValidationErrors) : result :=
  Error ("Namespace " +:+ ns +:+ " is not caught, " +:+ fmt_errors e).

Definition handleValidationErrors (e : ValidationErrors) : result :=
  match e with
  | [] => Panic IndexOutOfRange
  | err :: _ =>
      let ns := Namespace err in
      if String.eqb ns "Properties.ServicePrincipalProfile.ClientID"
         || String.eqb ns "Properties.ServicePrincipalProfile.Secret"
         || String.eqb ns "Properties.WindowsProfile.AdminUsername"
         || String.eqb ns "Properties.WindowsProfile.AdminPassword"
      then Error ("missing " +:+ ns)
      else if HasPrefix ns "Properties.AgentPoolProfiles" then
        if HasSuffix ns ".Name" || HasSuffix ns "VMSize" then
          Error ("missing " +:+ ns)
        else if HasSuffix ns ".Count" then
          Error ("AgentPoolProfile count needs to be in the range [" +:+
                 fmt_d MinAgentCount +:+ "," +:+ fmt_d MaxAgentCount +:+ "]")
        else if HasSuffix ns ".OSDiskSizeGB" then
          match Value err with
          | VInt n =>
              Error ("Invalid os disk size of " +:+ fmt_d n +:+
                     " specified.  The range of valid values are [" +:+
                     fmt_d MinDiskSizeGB +:+ ", " +:+ fmt_d MaxDiskSizeGB +:+ "]")
          | _ => Panic TypeAssertionFailed
          end
        else if HasSuffix ns ".StorageProfile" then
          match Value err with
          | VString s =>
              Error ("Unknown storageProfile '" +:+ s +:+ "'. Must specify " +:+
                     ManagedDisks)
          | _ => Panic TypeAssertionFailed
          end
        else notCaught ns e
      else notCaught ns e
  end.

(** The second loop of [validateVNET]: the first error of the decomposer,
    or the maps after the last pool. *)
Fixpoint decomposeLoop (pools : list AgentPoolProfile) (m : vnetMaps)
    : string + vnetMaps :=
  match pools with
  | [] => inr m
  | agentPool :: rest =>
      let '(agentSubID, agentRG, agentVNET, _, err) :=
        GetVNETSubnetIDComponents (VnetSubnetID agentPool) in
      match err with
      | Some e => inl e
      | None =>
          decomposeLoop rest
            {| subIDMap := increment (subIDMap m) agentSubID;
               resourceGroupMap := increment (resourceGroupMap m) agentRG;
               agentVNETMap := increment (agentVNETMap m) agentVNET |}
      end
  end.

Definition validateVNET (a : Properties) : result :=
  let '(customVNETCount, isCustomVNET) :=
    classifyLoop (AgentPoolProfiles a) (0, false) in
  if negb ((customVNETCount =? 0)
           || (customVNETCount =? Z.of_nat (length (AgentPoolProfiles a))))
  then Error mixedVNETError
  else if isCustomVNET then
    match decomposeLoop (AgentPoolProfiles a) emptyMaps with
    | inl err => Error err
    | inr _ => Nil
    end
  else Nil.

(** An [error] returned by a collaborator and passed on with [return e]. *)
Definition of_error (e : option string) : result :=
  match e with
  | Some msg => Error msg
  | None => Nil
  end.

(** [Properties.Validate] *)
Definition Properties_Validate (a : Properties) : result :=
  match validate_Struct a with
  | Some e => handleValidationErrors e
  | None =>
      of_error (ValidateDNSPrefix (DNSPrefix a)) ;;;
      validateUniqueProfileNames (AgentPoolProfiles a) ;;;
      validatePoolsLoop (AgentPoolProfiles a) ;;;
      match LinuxProfilePtr a with
      | Some l => LinuxProfile_Validate l
      | None => Nil
      end ;;;
      validateVNET a
  end.


(** ** Vocabulary of the statements *)

Definition is_lower (c : ascii) : Prop :=
  (nat_of_ascii "a" <= nat_of_ascii c <= nat_of_ascii "z")%nat.

Definition is_digit (c : ascii) : Prop :=
  (nat_of_ascii "0" <= nat_of_ascii c <= nat_of_ascii "9")%nat.

(** A lowercase letter, then lowercase letters or digits, at most twelve
    bytes in all. *)
Definition valid_pool_name (s : string) : Prop :=
  exists c rest,
    s = String c rest
    /\ is_lower c
    /\ Forall (fun x => is_lower x \/ is_digit x) (list_ascii_of_string rest)
    /\ (String.length s <= 12)%nat.

Definition invalidPoolName (poolName : string) : string :=
  "pool name '" +:+ poolName +:+
  "' is invalid. A pool name must start with a lowercase letter, have max length of 12, and only have characters a-z0-9".

Definition duplicateName (name : string) : string :=
  "profile name '" +:+ name +:+
  "' already exists, profile names must be unique across pools".

(** The namespaces matched by the first [case] of the classifier. *)
Definition credentialNamespaces : list string :=
  [ "Properties.ServicePrincipalProfile.ClientID";
    "Properties.ServicePrincipalProfile.Secret";
    "Properties.WindowsProfile.AdminUsername";
    "Properties.WindowsProfile.AdminPassword" ].

Definition underAgentPools (ns : string) : Prop :=
  HasPrefix ns "Properties.AgentPoolProfiles" = true.

Definition name_ok (pool : AgentPoolProfile) : Prop :=
  AgentPoolProfile_Validate pool = Nil.

(** The suffixes tested by the inner [switch] of the classifier. *)
Definition classifierSuffixes : list string :=
  [".Name"; "VMSize"; ".Count"; ".OSDiskSizeGB"; ".StorageProfile"].

(** The number of pools with a non-empty [vnetSubnetID]. *)
Definition customVNETCount (pools : list AgentPoolProfile) : Z :=
  Z.of_nat (length (List.filter IsCustomVNET pools)).

(** The components the decomposer returns for a pool. *)
Definition subscriptionOf (pool : AgentPoolProfile) : string :=
  let '(sub, _, _, _, _) := GetVNETSubnetIDComponents (VnetSubnetID pool) in sub.

Definition resourceGroupOf (pool : AgentPoolProfile) : string :=
  let '(_, rg, _, _, _) := GetVNETSubnetIDComponents (VnetSubnetID pool) in rg.

Definition networkOf (pool : AgentPoolProfile) : string :=
  let '(_, _, vnet, _, _) := GetVNETSubnetIDComponents (VnetSubnetID pool) in vnet.

(** How many of the pools have the component [k]. *)
Definition occurrences (component : AgentPoolProfile -> string) (k : string)
    (pools : list AgentPoolProfile) : Z :=
  Z.of_nat (length (List.filter (fun p => String.eqb (component p) k) pools)).

(** The decomposer returns no error on the pool's [vnetSubnetID]. *)
Definition decomposes (pool : AgentPoolProfile) : Prop :=
  snd (GetVNETSubnetIDComponents (VnetSubnetID pool)) = None.

(** * Properties *)

(** ** Prefixes and suffixes *)

Lemma substring_0_0 (s : string) : substring 0 0 s = "".
Proof. by destruct s. Qed.

Lemma HasPrefix_cons (d c : ascii) (s t : string) :
  HasPrefix (String d s) (String c t) = Ascii.eqb d c && HasPrefix s t.
Proof.
  unfold HasPrefix; simpl.
  by destruct (Ascii.eqb d c), (String.length t <=? String.length s)%nat.
Qed.

Lemma append_nil (t : string) : "" +:+ t = t.
Proof. reflexivity. Qed.

Lemma append_cons (c : ascii) (s t : string) :
  String c s +:+ t = String c (s +:+ t).
Proof. reflexivity. Qed.

Tactic Notation "unfold_append" := rewrite ?append_cons, ?append_nil.
Tactic Notation "unfold_append" "in" hyp(H) :=
  rewrite ?append_cons, ?append_nil in H.

Lemma HasPrefix_spec (s t : string) :
  HasPrefix s t = true <-> exists q, s = t +:+ q.
Proof.
  revert s; induction t as [|c t IH]; intros s.
  - split; [by exists s|intros _].
    unfold HasPrefix; simpl. by rewrite substring_0_0.
  - destruct s as [|d s].
    + split; [discriminate|]. intros [q H]. unfold_append in H. discriminate.
    + rewrite HasPrefix_cons, andb_true_iff, IH, Ascii.eqb_eq. split.
      * intros [-> [q ->]]. by exists q.
      * intros [q H]. unfold_append in H. injection H as -> ->.
        split; [done|by exists q].
Qed.

Lemma substring_all (t : string) : substring 0 (String.length t) t = t.
Proof. induction t; simpl; congruence. Qed.

Lemma substring_skip (p t : string) :
  substring (String.length p) (String.length t) (p +:+ t) = t.
Proof.
  induction p; unfold_append; simpl; [apply substring_all|done].
Qed.

Lemma length_append (p t : string) :
  String.length (p +:+ t) = (String.length p + String.length t)%nat.
Proof.
  induction p as [|c p IH]; unfold_append; simpl; [done|by rewrite IH].
Qed.

Lemma substring_split (s : string) (n : nat) :
  (n <= String.length s)%nat ->
  s = substring 0 n s +:+ substring n (String.length s - n) s.
Proof.
  revert n; induction s as [|c s IH]; intros [|n] Hn; simpl in Hn |- *;
    unfold_append; try reflexivity; try lia.
  - by rewrite substring_all.
  - f_equal. apply IH. lia.
Qed.

Lemma HasSuffix_spec (s t : string) :
  HasSuffix s t = true <-> exists p, s = p +:+ t.
Proof.
  unfold HasSuffix. rewrite andb_true_iff, Nat.leb_le, String.eqb_eq. split.
  - intros [Hle Hsub]. exists (substring 0 (String.length s - String.length t) s).
    pose proof (substring_split s (String.length s - String.length t)) as Hs.
    replace (String.length s - (String.length s - String.length t))%nat
      with (String.length t) in Hs by lia.
    rewrite Hsub in Hs. apply Hs. lia.
  - intros [p ->]. rewrite length_append. split; [lia|].
    replace (String.length p + String.length t - String.length t)%nat
      with (String.length p) by lia.
    apply substring_skip.
Qed.

(** Two suffixes of one string: one is a suffix of the other. *)
Lemma HasSuffix_comparable (s t1 t2 : string) :
  HasSuffix s t1 = true -> HasSuffix s t2 = true ->
  HasSuffix t1 t2 = true \/ HasSuffix t2 t1 = true.
Proof.
  rewrite !HasSuffix_spec. intros [p1 ->] [p2 H]. revert p2 H.
  induction p1 as [|c p1 IH]; intros p2 H; unfold_append in H.
  - left. by exists p2.
  - destruct p2 as [|d p2]; unfold_append in H.
    + right. exists (String c p1). by rewrite <- H.
    + injection H as _ H. by apply (IH p2).
Qed.

(** ** The pool-name pattern *)

Lemma re_match_none (s : string) : re_match ReNone s = false.
Proof. induction s; simpl; auto. Qed.

Lemma re_match_cat_none (r : regex) (s : string) :
  re_match (ReCat ReNone r) s = false.
Proof. induction s; simpl; auto. Qed.

Lemma re_match_alt (r1 r2 : regex) (s : string) :
  re_match (ReAlt r1 r2) s = re_match r1 s || re_match r2 s.
Proof. revert r1 r2; induction s; intros r1 r2; simpl; auto. Qed.

Lemma re_match_cat_eps (r : regex) (s : string) :
  re_match (ReCat ReEps r) s = re_match r s.
Proof.
  destruct s as [|c s]; simpl; [done|].
  by rewrite re_match_alt, re_match_cat_none.
Qed.

Lemma re_match_class_cat (ranges : list (ascii * ascii)) (r : regex)
    (c : ascii) (s : string) :
  re_match (ReCat (ReClass ranges) r) (String c s)
  = in_class ranges c && re_match r s.
Proof.
  simpl. destruct (in_class ranges c); simpl.
  - apply re_match_cat_eps.
  - apply re_match_cat_none.
Qed.

Lemma re_match_repeat_class (ranges : list (ascii * ascii)) (n : nat)
    (s : string) :
  re_match (ReRepeat 0 n (ReClass ranges)) s
  = (String.length s <=? n)%nat
    && forallb (in_class ranges) (list_ascii_of_string s).
Proof.
  revert s; induction n as [|n IH]; intros [|c s]; simpl; try reflexivity.
  - apply re_match_none.
  - destruct (in_class ranges c); simpl.
    + by rewrite re_match_cat_eps, IH.
    + by rewrite re_match_cat_none, andb_false_r.
Qed.

Lemma in_class_lower (c : ascii) :
  in_class [("a", "z")%char] c = true <-> is_lower c.
Proof.
  unfold in_class, in_range, is_lower; cbn [existsb fst snd].
  by rewrite orb_false_r, andb_true_iff, !Nat.leb_le.
Qed.

Lemma in_class_lower_digit (c : ascii) :
  in_class [("a", "z")%char; ("0", "9")%char] c = true
  <-> is_lower c \/ is_digit c.
Proof.
  unfold in_class, in_range, is_lower, is_digit; cbn [existsb fst snd].
  by rewrite orb_false_r, orb_true_iff, !andb_true_iff, !Nat.leb_le.
Qed.

Lemma re_match_poolNameRegex (s : string) :
  re_match poolNameRegex s = true <-> valid_pool_name s.
Proof.
  unfold poolNameRegex, valid_pool_name. destruct s as [|c s].
  - split; [discriminate|]. intros (c & rest & H & _). discriminate.
  - change (re_match (ReGroup ?r) (String c s)) with (re_match r (String c s)).
    rewrite re_match_class_cat, re_match_repeat_class, !andb_true_iff.
    rewrite in_class_lower, Nat.leb_le, forallb_forall. split.
    + intros (Hc & Hlen & Hall). exists c, s.
      split; [done|]. split; [done|]. split; [|simpl; lia].
      apply Forall_forall. intros x Hx.
      apply in_class_lower_digit, Hall. by apply list_elem_of_In.
    + intros (c' & rest & [= <- <-] & Hc & Hall & Hlen).
      split; [done|]. split; [simpl in Hlen; lia|].
      intros x Hx. apply in_class_lower_digit.
      rewrite Forall_forall in Hall. by apply Hall, list_elem_of_In.
Qed.

Lemma validatePoolName_cases (poolName : string) :
  validatePoolName poolName =
  if re_match poolNameRegex poolName then Nil
  else Error (invalidPoolName poolName).
Proof.
  unfold validatePoolName, FindStringSubmatch.
  by destruct (re_match poolNameRegex poolName).
Qed.

(** C4. The name validator accepts a string exactly when it matches
    [^[a-z][a-z0-9]{0,11}$]: a lowercase ASCII letter followed by lowercase
    letters or digits, at most twelve bytes in all.  Every other string is
    rejected with an error that quotes the string and restates the rule. *)
Theorem validatePoolName_accepts_iff (poolName : string) :
  (validatePoolName poolName = Nil <-> valid_pool_name poolName)
  /\ (validatePoolName poolName <> Nil ->
      validatePoolName poolName = Error (invalidPoolName poolName))
  /\ (~ valid_pool_name poolName ->
      validatePoolName poolName =
      Error ("pool name '" +:+ poolName +:+
             "' is invalid. A pool name must start with a lowercase letter, have max length of 12, and only have characters a-z0-9")).
Proof.
  rewrite validatePoolName_cases, <- re_match_poolNameRegex.
  destruct (re_match poolNameRegex poolName); repeat split; try done.
Qed.

(** ** Unique profile names *)

(** The loop, started with the names [prev] already in the map: either all
    names are distinct and it returns [nil], or it stops at the first
    position whose name stands at an earlier position. *)
Lemma uniqueNamesLoop_spec (seen : gmap string bool) (prev : list string)
    (profiles : list AgentPoolProfile) :
  (forall x, is_Some (seen !! x) <-> x ∈ prev) ->
  NoDup prev ->
  let names := (prev ++ map Name profiles)%list in
  (uniqueNamesLoop seen profiles = Nil /\ NoDup names)
  \/ (exists i n,
        names !! i = Some n /\ n ∈ take i names /\ NoDup (take i names)
        /\ uniqueNamesLoop seen profiles = Error (duplicateName n)).
Proof.
  revert seen prev; induction profiles as [|p rest IH];
    intros seen prev Hseen Hprev; simpl.
  - left. by rewrite app_nil_r.
  - destruct (seen !! Name p) as [b|] eqn:Hp.
    + right. exists (length prev), (Name p).
      rewrite list_lookup_middle by done. rewrite take_app_length.
      repeat split; try done. apply Hseen. by rewrite Hp.
    + assert (Name p ∉ prev) as Hfresh.
      { intros Hin. apply Hseen in Hin. rewrite Hp in Hin. by destruct Hin. }
      rewrite cons_middle, app_assoc. apply IH.
      * intros x. rewrite elem_of_app, list_elem_of_singleton, <- Hseen.
        destruct (decide (Name p = x)) as [->|Hne].
        -- rewrite lookup_insert_eq. split; [by right|by eexists].
        -- rewrite lookup_insert_ne by done.
           split; [by left|]. intros [H|H]; [done|by subst].
      * apply NoDup_app. repeat split; [done| |apply NoDup_singleton].
        intros x Hx ->%list_elem_of_singleton. done.
Qed.

Lemma repeated_not_NoDup (names : list string) (i : nat) (n : string) :
  names !! i = Some n -> n ∈ take i names -> ~ NoDup names.
Proof.
  intros Hi Hin Hnd. rewrite <- (take_drop_middle names i n Hi) in Hnd.
  apply NoDup_app in Hnd as (_ & Hdisj & _).
  apply (Hdisj n Hin). apply list_elem_of_here.
Qed.

(** C5. The uniqueness validator succeeds exactly when the pool names are
    pairwise distinct.  Otherwise it fails with the error naming the name
    at the first position, in collection order, that repeats a name of an
    earlier position. *)
Theorem validateUniqueProfileNames_first_duplicate
    (profiles : list AgentPoolProfile) :
  let names := map Name profiles in
  (validateUniqueProfileNames profiles = Nil <-> NoDup names)
  /\ (validateUniqueProfileNames profiles = Nil
      \/ exists i n,
           names !! i = Some n /\ n ∈ take i names /\ NoDup (take i names)
           /\ validateUniqueProfileNames profiles =
              Error ("profile name '" +:+ n +:+
                     "' already exists, profile names must be unique across pools")).
Proof.
  intros names. unfold validateUniqueProfileNames.
  destruct (uniqueNamesLoop_spec ∅ [] profiles) as [[Hok Hnd]|Hdup].
  - intros x. rewrite lookup_empty, elem_of_nil. split; [by intros []|done].
  - apply NoDup_nil_2.
  - simpl in Hnd. split; [done|by left].
  - simpl in Hdup. destruct Hdup as (i & n & Hi & Hin & Hnd & Herr).
    split; [|right; by exists i, n].
    rewrite Herr. split; [discriminate|].
    intros Hall. by destruct (repeated_not_NoDup _ i n Hi Hin).
Qed.

(** ** VNET consistency *)

Lemma IsCustomVNET_nonempty (pool : AgentPoolProfile) :
  IsCustomVNET pool = true <-> VnetSubnetID pool <> "".
Proof. unfold IsCustomVNET. by destruct (VnetSubnetID pool). Qed.

Lemma customVNETCount_cons (pool : AgentPoolProfile)
    (pools : list AgentPoolProfile) :
  customVNETCount (pool :: pools)
  = (if IsCustomVNET pool then 1 else 0) + customVNETCount pools.
Proof.
  unfold customVNETCount; simpl.
  destruct (IsCustomVNET pool); simpl length; lia.
Qed.

Lemma customVNETCount_bounds (pools : list AgentPoolProfile) :
  0 <= customVNETCount pools <= Z.of_nat (length pools).
Proof.
  induction pools as [|pool pools IH]; [done|].
  rewrite customVNETCount_cons. simpl length.
  destruct (IsCustomVNET pool); lia.
Qed.

Lemma customVNETCount_pos (pools : list AgentPoolProfile) :
  0 < customVNETCount pools <-> existsb IsCustomVNET pools = true.
Proof.
  induction pools as [|pool pools IH]; [done|].
  rewrite customVNETCount_cons. simpl existsb.
  pose proof (customVNETCount_bounds pools).
  destruct (IsCustomVNET pool); simpl; [split; [done|lia]|].
  rewrite <- IH. split; lia.
Qed.

(** What the first loop computes from any starting state. *)
Lemma classifyLoop_spec (pools : list AgentPoolProfile) (c : Z) (f : bool) :
  classifyLoop pools (c, f)
  = (c + customVNETCount pools, f || existsb IsCustomVNET pools).
Proof.
  revert c f; induction pools as [|pool pools IH]; intros c f.
  - simpl. f_equal; [unfold customVNETCount; simpl; lia|by rewrite orb_false_r].
  - simpl classifyLoop. rewrite customVNETCount_cons. simpl existsb.
    destruct (IsCustomVNET pool); simpl fst; rewrite IH.
    + f_equal; [lia|by rewrite orb_true_r].
    + reflexivity.
Qed.

(** C7. After the first loop of [validateVNET] the flag [isCustomVNET],
    assigned from the last custom pool seen, is true exactly when
    [customVNETCount > 0], that is, exactly when at least one pool has a
    non-empty [vnetSubnetID]. *)
Theorem classifyLoop_flag_iff_count (pools : list AgentPoolProfile) :
  let st := classifyLoop pools (0, false) in
  fst st = customVNETCount pools
  /\ (snd st = true <-> fst st > 0)
  /\ (snd st = true <-> Exists (fun p => VnetSubnetID p <> "") pools).
Proof.
  rewrite classifyLoop_spec; simpl.
  split; [done|]. rewrite <- customVNETCount_pos. split; [lia|].
  rewrite customVNETCount_pos, existsb_exists, Exists_exists.
  split; intros (p & Hin & Hp); exists p.
  - split; [by apply list_elem_of_In|by apply IsCustomVNET_nonempty].
  - split; [by apply list_elem_of_In|by apply IsCustomVNET_nonempty].
Qed.

(** [validateVNET] in terms of the number of custom pools. *)
Lemma validateVNET_cases (a : Properties) :
  let pools := AgentPoolProfiles a in
  validateVNET a =
  if negb ((customVNETCount pools =? 0)
           || (customVNETCount pools =? Z.of_nat (length pools)))
  then Error mixedVNETError
  else if existsb IsCustomVNET pools then
    match decomposeLoop pools emptyMaps with
    | inl err => Error err
    | inr _ => Nil
    end
  else Nil.
Proof. unfold validateVNET. by rewrite classifyLoop_spec. Qed.

(** The second loop stops at the first pool whose identifier does not
    decompose, with the decomposer's error. *)
Lemma decomposeLoop_first_failure (pools : list AgentPoolProfile)
    (m : vnetMaps) (i : nat) (pool : AgentPoolProfile) (e : string) :
  pools !! i = Some pool ->
  snd (GetVNETSubnetIDComponents (VnetSubnetID pool)) = Some e ->
  Forall decomposes (take i pools) ->
  decomposeLoop pools m = inl e.
Proof.
  revert m i; induction pools as [|p pools IH]; intros m i Hi He Hok; [done|].
  simpl. destruct i as [|i]; simpl in Hi, Hok.
  - injection Hi as ->.
    destruct (GetVNETSubnetIDComponents (VnetSubnetID pool))
      as [[[[sub rg] vnet] subnet] err]. simpl in He. by subst.
  - apply Forall_cons in Hok as [Hp Hok]. unfold decomposes in Hp.
    destruct (GetVNETSubnetIDComponents (VnetSubnetID p))
      as [[[[sub rg] vnet] subnet] err]. simpl in Hp. subst err.
    by apply (IH _ i).
Qed.

Lemma decomposeLoop_success (pools : list AgentPoolProfile) (m : vnetMaps) :
  Forall decomposes pools -> exists m', decomposeLoop pools m = inr m'.
Proof.
  revert m; induction pools as [|p pools IH]; intros m Hok; [by exists m|].
  apply Forall_cons in Hok as [Hp Hok]. unfold decomposes in Hp. simpl.
  destruct (GetVNETSubnetIDComponents (VnetSubnetID p))
    as [[[[sub rg] vnet] subnet] err]. simpl in Hp. subst err. by apply IH.
Qed.

Lemma decomposeLoop_failure (pools : list AgentPoolProfile) (m : vnetMaps)
    (e : string) :
  decomposeLoop pools m = inl e -> Exists (fun p => ~ decomposes p) pools.
Proof.
  revert m; induction pools as [|p pools IH]; intros m H; [done|].
  simpl in H. unfold decomposes.
  destruct (GetVNETSubnetIDComponents (VnetSubnetID p))
    as [[[[sub rg] vnet] subnet] [err|]] eqn:Hd.
  - left. by rewrite Hd.
  - right. by apply (IH _ H).
Qed.

Lemma lookup_increment (m : gmap string Z) (k k' : string) :
  default 0 (increment m k !! k')
  = default 0 (m !! k') + (if String.eqb k k' then 1 else 0).
Proof.
  unfold increment. destruct (String.eqb_spec k k') as [->|Hne].
  - by rewrite lookup_insert_eq.
  - rewrite lookup_insert_ne by done. lia.
Qed.

(** When the second loop runs to its end, the three maps hold, for every
    key, the number of pools with that subscription, resource group and
    network. *)
Lemma decomposeLoop_counts (pools : list AgentPoolProfile) (m m' : vnetMaps)
    (k : string) :
  decomposeLoop pools m = inr m' ->
  default 0 (subIDMap m' !! k)
  = default 0 (subIDMap m !! k) + occurrences subscriptionOf k pools
  /\ default 0 (resourceGroupMap m' !! k)
     = default 0 (resourceGroupMap m !! k) + occurrences resourceGroupOf k pools
  /\ default 0 (agentVNETMap m' !! k)
     = default 0 (agentVNETMap m !! k) + occurrences networkOf k pools.
Proof.
  revert m; induction pools as [|p pools IH]; intros m H; simpl in H.
  - injection H as <-. unfold occurrences; simpl. lia.
  - unfold occurrences, subscriptionOf, resourceGroupOf, networkOf in *.
    simpl List.filter.
    destruct (GetVNETSubnetIDComponents (VnetSubnetID p))
      as [[[[sub rg] vnet] subnet] [err|]]; [done|].
    destruct (IH _ H) as (Hs & Hr & Hv). simpl in Hs, Hr, Hv.
    rewrite lookup_increment in Hs, Hr, Hv.
    destruct (String.eqb sub k), (String.eqb rg k), (String.eqb vnet k);
      simpl length; lia.
Qed.

Lemma decomposes_dec (pool : AgentPoolProfile) :
  decomposes pool \/ ~ decomposes pool.
Proof.
  unfold decomposes.
  destruct (snd (GetVNETSubnetIDComponents (VnetSubnetID pool)));
    [by right|by left].
Qed.

(** C1, amended.  With [n] the number of pools whose [vnetSubnetID] is
    non-empty: when [n] is neither 0 nor the number of pools, [validateVNET]
    returns the mixed-configuration error, whose text is the one of the
    code; when [n] is 0 it accepts; when every pool is custom and every
    identifier decomposes it accepts.  It rejects exactly in the mixed case
    or when every pool is custom and some identifier does not decompose. *)
Theorem validateVNET_all_or_nothing (a : Properties) :
  let pools := AgentPoolProfiles a in
  let n := customVNETCount pools in
  let total := Z.of_nat (length pools) in
  (n <> 0 /\ n <> total ->
   validateVNET a =
   Error "Multiple VNET Subnet configurations specified.  Each agent pool profile must all specify a custom VNET Subnet, or none at all")
  /\ (n = 0 -> validateVNET a = Nil)
  /\ (n = total -> Forall decomposes pools -> validateVNET a = Nil)
  /\ (validateVNET a <> Nil <->
      (n <> 0 /\ n <> total)
      \/ (n = total /\ Exists (fun p => ~ decomposes p) pools)).
Proof.
  intros pools n total. rewrite validateVNET_cases. fold pools n total.
  pose proof (customVNETCount_pos pools) as Hpos. fold n in Hpos.
  destruct (n =? 0) eqn:H0; [apply Z.eqb_eq in H0|apply Z.eqb_neq in H0].
  { (* no custom pool *)
    destruct (existsb IsCustomVNET pools); [lia|]. simpl.
    repeat split; try done; try lia.
    intros [[? _]|[Hn Hex]]; [done|].
    assert (pools = []) as Hnil by (apply length_zero_iff_nil; lia).
    rewrite Hnil in Hex. by apply Exists_nil in Hex. }
  destruct (n =? total) eqn:Ht; [apply Z.eqb_eq in Ht|apply Z.eqb_neq in Ht];
    simpl.
  2: { (* mixed *)
    repeat split; try done; try lia; try (intros _; by left). }
  (* every pool is custom *)
  pose proof (customVNETCount_bounds pools). fold n in H.
  destruct (existsb IsCustomVNET pools); [|lia].
  destruct (decomposeLoop pools emptyMaps) as [e|m] eqn:Hloop.
  - apply decomposeLoop_failure in Hloop as Hex.
    repeat split; try done; try lia.
    + intros _ Hall. destruct (decomposeLoop_success pools emptyMaps Hall).
      congruence.
    + intros _. by right.
  - repeat split; try done; try lia.
    intros [[_ ?]|[_ Hex]]; [done|].
    apply Exists_exists in Hex as (p & Hin & Hp).
    apply list_elem_of_lookup in Hin as [i Hi].
    assert (exists j q e, pools !! j = Some q
              /\ snd (GetVNETSubnetIDComponents (VnetSubnetID q)) = Some e
              /\ Forall decomposes (take j pools)) as (j & q & e & Hj & He & Hok).
    { clear -Hi Hp. revert i Hi. induction pools as [|r pools IH]; [done|].
      intros i Hi. destruct (decomposes_dec r) as [Hr|Hr].
      - destruct i as [|i]; simpl in Hi; [by injection Hi as ->|].
        destruct (IH i Hi) as (j & q & e & Hj & He & Hok).
        exists (S j), q, e. repeat split; try done. simpl. by constructor.
      - exists 0%nat, r. unfold decomposes in Hr.
        destruct (snd (GetVNETSubnetIDComponents (VnetSubnetID r))) as [e|];
          [|done].
        exists e. repeat split. simpl. constructor. }
    rewrite (decomposeLoop_first_failure pools emptyMaps j q e Hj He Hok)
      in Hloop. discriminate.
Qed.

(** C6. When the all-or-nothing check passes and at least one pool is
    custom, [validateVNET] decomposes the identifiers in pool order and
    returns the decomposer's error at the first identifier that fails; if
    every identifier decomposes it returns [nil], whatever subscriptions,
    resource groups and networks the identifiers name. *)
Theorem validateVNET_decomposition (a : Properties) :
  let pools := AgentPoolProfiles a in
  0 < customVNETCount pools ->
  customVNETCount pools = Z.of_nat (length pools) ->
  (forall i pool e,
      pools !! i = Some pool ->
      snd (GetVNETSubnetIDComponents (VnetSubnetID pool)) = Some e ->
      Forall decomposes (take i pools) ->
      validateVNET a = Error e)
  /\ (Forall decomposes pools -> validateVNET a = Nil).
Proof.
  intros pools Hpos Hall. rewrite validateVNET_cases. fold pools.
  rewrite Hall, Z.eqb_refl, orb_true_r. simpl.
  apply customVNETCount_pos in Hpos. rewrite Hpos. split.
  - intros i pool e Hi He Hok.
    by rewrite (decomposeLoop_first_failure pools emptyMaps i pool e).
  - intros Hok. by destruct (decomposeLoop_success pools emptyMaps Hok) as [m ->].
Qed.

(** C10. With no agent pool at all, the uniqueness validator and the VNET
    validator both return [nil]: the count of custom pools is 0, equal to
    the number of pools, and no custom pool was seen, so the second loop is
    not entered. *)
Theorem empty_pools_accepted (a : Properties) :
  AgentPoolProfiles a = [] ->
  validateUniqueProfileNames (AgentPoolProfiles a) = Nil
  /\ validateVNET a = Nil
  /\ classifyLoop (AgentPoolProfiles a) (0, false) = (0, false)
  /\ customVNETCount (AgentPoolProfiles a)
     = Z.of_nat (length (AgentPoolProfiles a)).
Proof.
  intros Hnil. unfold validateVNET. rewrite Hnil. by repeat split.
Qed.

(** ** The error classifier *)

Lemma HasSuffix_exclusive (s t1 t2 : string) :
  HasSuffix t1 t2 = false -> HasSuffix t2 t1 = false ->
  HasSuffix s t1 = true -> HasSuffix s t2 = false.
Proof.
  intros H12 H21 H1. destruct (HasSuffix s t2) eqn:H2; [|done].
  destruct (HasSuffix_comparable s t1 t2 H1 H2); congruence.
Qed.

Lemma HasSuffix_weaken (s p t : string) :
  HasSuffix s (p +:+ t) = true -> HasSuffix s t = true.
Proof.
  rewrite !HasSuffix_spec. intros [q ->]. exists (q +:+ p).
  clear. induction q; unfold_append; [done|by f_equal].
Qed.

Lemma credential_test (ns : string) :
  String.eqb ns "Properties.ServicePrincipalProfile.ClientID"
  || String.eqb ns "Properties.ServicePrincipalProfile.Secret"
  || String.eqb ns "Properties.WindowsProfile.AdminUsername"
  || String.eqb ns "Properties.WindowsProfile.AdminPassword" = true
  <-> ns ∈ credentialNamespaces.
Proof.
  unfold credentialNamespaces.
  rewrite !orb_true_iff, !String.eqb_eq, !elem_of_cons, elem_of_nil.
  split; [intros [[[-> | ->] | ->] | ->]
         |intros [-> | [-> | [-> | [-> | []]]]]]; auto 6.
Qed.

Lemma underAgentPools_not_credential (ns : string) :
  underAgentPools ns -> ns ∉ credentialNamespaces.
Proof.
  unfold underAgentPools, credentialNamespaces. intros Hp Hin.
  rewrite !elem_of_cons, elem_of_nil in Hin.
  destruct Hin as [-> | [-> | [-> | [-> | []]]]]; vm_compute in Hp;
    discriminate.
Qed.

(** The classifier on a violation that is not one of the credential
    namespaces. *)
Lemma handleValidationErrors_default (err : FieldError)
    (rest : ValidationErrors) :
  let ns := Namespace err in
  ns ∉ credentialNamespaces ->
  handleValidationErrors (err :: rest) =
  if HasPrefix ns "Properties.AgentPoolProfiles" then
    if HasSuffix ns ".Name" || HasSuffix ns "VMSize" then
      Error ("missing " +:+ ns)
    else if HasSuffix ns ".Count" then
      Error ("AgentPoolProfile count needs to be in the range [" +:+
             fmt_d MinAgentCount +:+ "," +:+ fmt_d MaxAgentCount +:+ "]")
    else if HasSuffix ns ".OSDiskSizeGB" then
      match Value err with
      | VInt n =>
          Error ("Invalid os disk size of " +:+ fmt_d n +:+
                 " specified.  The range of valid values are [" +:+
                 fmt_d MinDiskSizeGB +:+ ", " +:+ fmt_d MaxDiskSizeGB +:+ "]")
      | _ => Panic TypeAssertionFailed
      end
    else if HasSuffix ns ".StorageProfile" then
      match Value err with
      | VString s =>
          Error ("Unknown storageProfile '" +:+ s +:+ "'. Must specify " +:+
                 ManagedDisks)
      | _ => Panic TypeAssertionFailed
      end
    else notCaught ns (err :: rest)
  else notCaught ns (err :: rest).
Proof.
  intros ns Hns. unfold handleValidationErrors. fold ns.
  rewrite <- credential_test in Hns.
  by apply not_true_is_false in Hns as ->.
Qed.

Lemma handleValidationErrors_not_nil (e : ValidationErrors) :
  handleValidationErrors e <> Nil.
Proof.
  unfold handleValidationErrors, notCaught.
  destruct e as [|err rest]; [done|].
  repeat match goal with
         | |- context [if ?b then _ else _] => destruct b
         | |- context [match Value err with _ => _ end] => destruct (Value err)
         end; discriminate.
Qed.

(** From [H : HasSuffix s t = true], the tests of [s] against the other
    suffixes of the classifier are false. *)
Ltac other_suffix H :=
  match type of H with
  | HasSuffix ?s ?t = true =>
      try rewrite (HasSuffix_exclusive s t ".Name" eq_refl eq_refl H);
      try rewrite (HasSuffix_exclusive s t "VMSize" eq_refl eq_refl H);
      try rewrite (HasSuffix_exclusive s t ".Count" eq_refl eq_refl H);
      try rewrite (HasSuffix_exclusive s t ".OSDiskSizeGB" eq_refl eq_refl H);
      try rewrite (HasSuffix_exclusive s t ".StorageProfile" eq_refl eq_refl H)
  end.

(** C2, amended.  On a non-empty violation list the classifier reads the
    namespace and the value of the first violation only.  A namespace equal
    to one of [Properties.ServicePrincipalProfile.ClientID],
    [Properties.ServicePrincipalProfile.Secret],
    [Properties.WindowsProfile.AdminUsername],
    [Properties.WindowsProfile.AdminPassword] gives "missing <namespace>".
    Under [Properties.AgentPoolProfiles]: the suffix [.Name] or [.VMSize]
    gives "missing <namespace>"; [.Count] gives the message with
    [MinAgentCount] and [MaxAgentCount]; [.OSDiskSizeGB] with an [int] value
    gives the message with the value in decimal and the two disk bounds;
    [.StorageProfile] with a [string] value gives the message with the value
    and [ManagedDisks].  A namespace that is none of the four, and is either
    outside [Properties.AgentPoolProfiles] or ends in none of [.Name],
    [VMSize], [.Count], [.OSDiskSizeGB], [.StorageProfile], gives the
    catch-all error with the namespace and the rendering of the whole list.
    Every result but the catch-all is independent of the later
    violations. *)
Theorem handleValidationErrors_policy (err : FieldError)
    (rest : ValidationErrors) :
  let ns := Namespace err in
  let e := err :: rest in
  (ns ∈ credentialNamespaces ->
   handleValidationErrors e = Error ("missing " +:+ ns))
  /\ (underAgentPools ns ->
      HasSuffix ns ".Name" = true \/ HasSuffix ns ".VMSize" = true ->
      handleValidationErrors e = Error ("missing " +:+ ns))
  /\ (underAgentPools ns -> HasSuffix ns ".Count" = true ->
      handleValidationErrors e =
      Error ("AgentPoolProfile count needs to be in the range [" +:+
             fmt_d MinAgentCount +:+ "," +:+ fmt_d MaxAgentCount +:+ "]"))
  /\ (underAgentPools ns -> HasSuffix ns ".OSDiskSizeGB" = true ->
      forall n, Value err = VInt n ->
      handleValidationErrors e =
      Error ("Invalid os disk size of " +:+ fmt_d n +:+
             " specified.  The range of valid values are [" +:+
             fmt_d MinDiskSizeGB +:+ ", " +:+ fmt_d MaxDiskSizeGB +:+ "]"))
  /\ (underAgentPools ns -> HasSuffix ns ".StorageProfile" = true ->
      forall v, Value err = VString v ->
      handleValidationErrors e =
      Error ("Unknown storageProfile '" +:+ v +:+ "'. Must specify " +:+
             ManagedDisks))
  /\ (ns ∉ credentialNamespaces ->
      HasPrefix ns "Properties.AgentPoolProfiles" = false
      \/ (HasSuffix ns ".Name" = false /\ HasSuffix ns "VMSize" = false
          /\ HasSuffix ns ".Count" = false
          /\ HasSuffix ns ".OSDiskSizeGB" = false
          /\ HasSuffix ns ".StorageProfile" = false) ->
      handleValidationErrors e =
      Error ("Namespace " +:+ ns +:+ " is not caught, " +:+ fmt_errors e))
  /\ (forall rest',
      handleValidationErrors (err :: rest') = handleValidationErrors e
      \/ handleValidationErrors e =
         Error ("Namespace " +:+ ns +:+ " is not caught, " +:+ fmt_errors e)).
Proof.
  intros ns e. subst e.
  pose proof (fun r Hp =>
    handleValidationErrors_default err r
      (underAgentPools_not_credential (Namespace err) Hp)) as Hdef.
  cbv zeta in Hdef. fold ns in Hdef. repeat split.
  - intros Hin. unfold handleValidationErrors. fold ns.
    by apply credential_test in Hin as ->.
  - intros Hp Hs. rewrite (Hdef rest Hp), Hp.
    destruct Hs as [Hs|Hs]; [by rewrite Hs, orb_true_l|].
    apply (HasSuffix_weaken _ ".") in Hs. by rewrite Hs, orb_true_r.
  - intros Hp Hs. rewrite (Hdef rest Hp), Hp, Hs. by other_suffix Hs.
  - intros Hp Hs n Hv. rewrite (Hdef rest Hp), Hp, Hs, Hv. by other_suffix Hs.
  - intros Hp Hs v Hv. rewrite (Hdef rest Hp), Hp, Hs, Hv. by other_suffix Hs.
  - intros Hns Hother.
    rewrite (handleValidationErrors_default err rest Hns). fold ns.
    destruct Hother as [->|(-> & -> & -> & -> & ->)]; [done|].
    by destruct (HasPrefix ns "Properties.AgentPoolProfiles").
  - intros rest'. unfold handleValidationErrors, notCaught. fold ns.
    repeat match goal with
           | |- context [if ?b then _ else _] => destruct b
           | |- context [match Value err with _ => _ end] =>
               destruct (Value err)
           end; auto.
Qed.

(** C9, amended.  For a violation under [Properties.AgentPoolProfiles]
    whose namespace ends in [.OSDiskSizeGB], the classifier returns its
    error when the value is an [int]; on a value of any other dynamic type
    the type assertion panics and no error is returned.  The same holds for
    [.StorageProfile] and [string]. *)
Theorem handleValidationErrors_value_types (err : FieldError)
    (rest : ValidationErrors) :
  let ns := Namespace err in
  underAgentPools ns ->
  (HasSuffix ns ".OSDiskSizeGB" = true ->
   (forall n, Value err = VInt n ->
      exists msg, handleValidationErrors (err :: rest) = Error msg)
   /\ ((forall n, Value err <> VInt n) ->
       handleValidationErrors (err :: rest) = Panic TypeAssertionFailed))
  /\ (HasSuffix ns ".StorageProfile" = true ->
      (forall v, Value err = VString v ->
         exists msg, handleValidationErrors (err :: rest) = Error msg)
      /\ ((forall v, Value err <> VString v) ->
          handleValidationErrors (err :: rest) = Panic TypeAssertionFailed)).
Proof.
  intros ns Hp.
  rewrite handleValidationErrors_default
    by by apply underAgentPools_not_credential.
  fold ns. rewrite Hp. split; intros Hs; rewrite Hs; other_suffix Hs; simpl.
  - split; [intros n ->; by eexists|].
    intros Hv. destruct (Value err); try done. by destruct (Hv n).
  - split; [intros v ->; by eexists|].
    intros Hv. destruct (Value err); try done. by destruct (Hv s).
Qed.

(** ** The Linux profile *)

(** C8, amended.  When the list of SSH public keys has a first entry,
    [LinuxProfile.Validate] returns an error exactly when the key data of
    that entry is empty; the error is the fixed message about KeyData, and
    otherwise the result is [nil].  On an empty list no error is returned:
    the index expression [PublicKeys[0]] panics. *)
Theorem LinuxProfile_Validate_first_key (l : LinuxProfile) :
  (forall key0 rest, PublicKeys (SSH l) = key0 :: rest ->
     (LinuxProfile_Validate l =
      Error "KeyData in LinuxProfile.SSH.PublicKeys cannot be empty string"
      <-> KeyData key0 = "")
     /\ ((exists msg, LinuxProfile_Validate l = Error msg)
         <-> KeyData key0 = "")
     /\ (KeyData key0 <> "" -> LinuxProfile_Validate l = Nil))
  /\ (PublicKeys (SSH l) = [] ->
      LinuxProfile_Validate l = Panic IndexOutOfRange).
Proof.
  unfold LinuxProfile_Validate, validate_Var_required. split.
  - intros key0 rest ->.
    destruct (String.eqb_spec (KeyData key0) "") as [Hk|Hk].
    + repeat split; try done. by eexists.
    + repeat split; try done. by intros [msg ?].
  - by intros ->.
Qed.

(** ** The orchestrator *)

Lemma validatePoolsLoop_first_failure (pools : list AgentPoolProfile)
    (i : nat) (pool : AgentPoolProfile) :
  pools !! i = Some pool ->
  Forall name_ok (take i pools) ->
  ~ name_ok pool ->
  validatePoolsLoop pools = AgentPoolProfile_Validate pool.
Proof.
  revert i; induction pools as [|p pools IH]; intros i Hi Hok Hbad; [done|].
  simpl. destruct i as [|i]; simpl in Hi, Hok.
  - injection Hi as ->. unfold name_ok in Hbad.
    by destruct (AgentPoolProfile_Validate pool).
  - apply Forall_cons in Hok as [Hp Hok]. unfold name_ok in Hp.
    rewrite Hp. simpl. by apply (IH i).
Qed.

Lemma validatePoolsLoop_nil (pools : list AgentPoolProfile) :
  validatePoolsLoop pools = Nil <-> Forall name_ok pools.
Proof.
  induction pools as [|p pools IH]; simpl; [by split|].
  rewrite Forall_cons, <- IH. unfold name_ok.
  destruct (AgentPoolProfile_Validate p); simpl; split; try done;
    by intros [? ?].
Qed.

(** C3. [Properties.Validate] runs its stages in this order and returns the
    result of the first stage that fails, as that stage returned it: the
    field constraint engine, whose violations go to the error classifier;
    the DNS prefix; the uniqueness of the pool names; the name of each pool
    in collection order; the Linux profile, when there is one; the VNET
    validator.  It returns [nil] exactly when every stage succeeds. *)
Theorem Properties_Validate_sequence (a : Properties) :
  let pools := AgentPoolProfiles a in
  let linux_ok :=
    LinuxProfilePtr a = None
    \/ (exists l, LinuxProfilePtr a = Some l /\ LinuxProfile_Validate l = Nil) in
  (forall e, validate_Struct a = Some e ->
     Properties_Validate a = handleValidationErrors e)
  /\ (validate_Struct a = None ->
      (forall msg, ValidateDNSPrefix (DNSPrefix a) = Some msg ->
         Properties_Validate a = Error msg)
      /\ (ValidateDNSPrefix (DNSPrefix a) = None ->
          (validateUniqueProfileNames pools <> Nil ->
             Properties_Validate a = validateUniqueProfileNames pools)
          /\ (validateUniqueProfileNames pools = Nil ->
              (forall i pool,
                 pools !! i = Some pool ->
                 Forall name_ok (take i pools) ->
                 ~ name_ok pool ->
                 Properties_Validate a = validatePoolName (Name pool))
              /\ (Forall name_ok pools ->
                  (forall l, LinuxProfilePtr a = Some l ->
                     LinuxProfile_Validate l <> Nil ->
                     Properties_Validate a = LinuxProfile_Validate l)
                  /\ (linux_ok ->
                      Properties_Validate a = validateVNET a)))))
  /\ (Properties_Validate a = Nil <->
      validate_Struct a = None
      /\ ValidateDNSPrefix (DNSPrefix a) = None
      /\ validateUniqueProfileNames pools = Nil
      /\ Forall name_ok pools
      /\ linux_ok
      /\ validateVNET a = Nil).
Proof.
  intros pools linux_ok. unfold Properties_Validate. fold pools.
  destruct (validate_Struct a) as [e|] eqn:He.
  { split; [by intros ? [= <-]|]. split; [done|].
    split; [intros H; by apply handleValidationErrors_not_nil in H|].
    by intros [? _]. }
  split; [done|].
  destruct (ValidateDNSPrefix (DNSPrefix a)) as [msg|] eqn:Hdns; simpl.
  { split; [|split; [done|by intros (_ & ? & _)]].
    intros _. split; [by intros ? [= <-]|done]. }
  destruct (validateUniqueProfileNames pools) eqn:Hu; simpl;
    try (split;
         [intros _; split; [done|]; intros _; split; [done|done]
         |split; [done|by intros (_ & _ & ? & _)]]).
  pose proof (validatePoolsLoop_nil pools) as Hnames.
  destruct (validatePoolsLoop pools) eqn:Hloop; simpl.
  2,3: assert (~ Forall name_ok pools) as Hnot
         by (intros H; apply Hnames in H; discriminate).
  2,3: split;
         [intros _; split; [done|]; intros _; split; [done|]; intros _;
          split; [|done];
          intros i pool Hi Hok Hbad;
          change (validatePoolName (Name pool))
            with (AgentPoolProfile_Validate pool);
          by rewrite <- (validatePoolsLoop_first_failure pools i pool)
         |split; [done|by intros (_ & _ & _ & ? & _)]].
  assert (Forall name_ok pools) as Hall by by apply Hnames.
  assert (forall i pool, pools !! i = Some pool -> name_ok pool) as Hlook.
  { intros i pool Hi. rewrite Forall_forall in Hall.
    apply Hall, list_elem_of_lookup. eauto. }
  destruct (LinuxProfilePtr a) as [l|] eqn:Hl.
  - destruct (LinuxProfile_Validate l) eqn:Hlv; simpl.
    + split.
      * intros _. split; [done|]. intros _. split; [done|]. intros _. split.
        -- intros i pool Hi _ Hbad. destruct Hbad. eauto.
        -- intros _. split; [|done]. by intros ? [= <-].
      * split; [|by intros (_ & _ & _ & _ & _ & ?)].
        intros Hv. repeat split; try done. right. by exists l.
    + split.
      * intros _. split; [done|]. intros _. split; [done|]. intros _. split.
        -- intros i pool Hi _ Hbad. destruct Hbad. eauto.
        -- intros _. split.
           ++ intros ? [= <-] _. by rewrite Hlv.
           ++ intros [|(l' & [= <-] & Hl')]; [done|]. congruence.
      * split; [done|]. intros (_ & _ & _ & _ & [|(l' & [= <-] & Hl')] & _);
          [done|congruence].
    + split.
      * intros _. split; [done|]. intros _. split; [done|]. intros _. split.
        -- intros i pool Hi _ Hbad. destruct Hbad. eauto.
        -- intros _. split.
           ++ intros ? [= <-] _. by rewrite Hlv.
           ++ intros [|(l' & [= <-] & Hl')]; [done|]. congruence.
      * split; [done|]. intros (_ & _ & _ & _ & [|(l' & [= <-] & Hl')] & _);
          [done|congruence].
  - simpl. split.
    + intros _. split; [done|]. intros _. split; [done|]. intros _. split.
      * intros i pool Hi _ Hbad. destruct Hbad. eauto.
      * intros _. split; [done|done].
    + split; [|by intros (_ & _ & _ & _ & _ & ?)].
      intros Hv. repeat split; try done. by left.
Qed.

(** * Further properties of the validators *)

(** ** Sequencing *)

Lemma and_then_nil (r k : result) : r ;;; k = Nil <-> r = Nil /\ k = Nil.
Proof. destruct r; simpl; split; try done; by intros [? ?]. Qed.


(** ** The classifier *)

(** X1. The classifier never returns [nil].  It panics in two situations
    only: on an empty list, with an index out of range; and on a first
    violation under [Properties.AgentPoolProfiles] whose namespace ends in
    [.OSDiskSizeGB] with a value that is not an [int], or ends in
    [.StorageProfile] with a value that is not a [string], with a failed
    type assertion. *)
Theorem handleValidationErrors_panics_iff (e : ValidationErrors)
    (k : panic_kind) :
  handleValidationErrors e <> Nil
  /\ (handleValidationErrors e = Panic k <->
      (e = [] /\ k = IndexOutOfRange)
      \/ (exists err rest,
            e = err :: rest /\ k = TypeAssertionFailed
            /\ underAgentPools (Namespace err)
            /\ ((HasSuffix (Namespace err) ".OSDiskSizeGB" = true
                 /\ forall n, Value err <> VInt n)
                \/ (HasSuffix (Namespace err) ".StorageProfile" = true
                    /\ forall v, Value err <> VString v)))).
Proof.
  split; [apply handleValidationErrors_not_nil|].
  destruct e as [|err rest].
  { simpl. split.
    - intros [= <-]. by left.
    - intros [[_ ->]|(err & rest & ? & _)]; done. }
  destruct (decide (Namespace err ∈ credentialNamespaces)) as [Hin|Hout].
  { split.
    - unfold handleValidationErrors.
      by apply credential_test in Hin as ->.
    - intros [[? _]|(err' & rest' & [= <- <-] & _ & Hp & _)]; [done|].
      by destruct (underAgentPools_not_credential _ Hp). }
  rewrite (handleValidationErrors_default err rest Hout).
  unfold underAgentPools, notCaught. split.
  - intros H. right. exists err, rest. split; [done|].
    destruct (HasPrefix (Namespace err) "Properties.AgentPoolProfiles");
      [|done].
    destruct (HasSuffix (Namespace err) ".Name"
              || HasSuffix (Namespace err) "VMSize"); [done|].
    destruct (HasSuffix (Namespace err) ".Count"); [done|].
    destruct (HasSuffix (Namespace err) ".OSDiskSizeGB").
    + destruct (Value err) eqn:Hv; try done; injection H as <-;
        repeat split; left; split; try done; intros ?; discriminate.
    + destruct (HasSuffix (Namespace err) ".StorageProfile"); [|done].
      destruct (Value err) eqn:Hv; try done; injection H as <-;
        repeat split; right; split; try done; intros ?; discriminate.
  - intros [[? _]|(err' & rest' & [= <- <-] & -> & -> & Hcase)]; [done|].
    destruct Hcase as [[Hs Hv]|[Hs Hv]]; rewrite Hs; other_suffix Hs; simpl.
    + destruct (Value err); try done. by destruct (Hv n).
    + destruct (Value err); try done. by destruct (Hv s).
Qed.

(** X2. The suffix tests of the classifier exclude one another: no
    namespace ends in two different suffixes among [.Name], [VMSize],
    [.Count], [.OSDiskSizeGB] and [.StorageProfile], so the order of the
    cases does not decide which message is produced. *)
Theorem classifierSuffixes_exclusive (ns t1 t2 : string) :
  t1 ∈ classifierSuffixes -> t2 ∈ classifierSuffixes -> t1 <> t2 ->
  HasSuffix ns t1 = true -> HasSuffix ns t2 = false.
Proof.
  unfold classifierSuffixes. rewrite !elem_of_cons, !elem_of_nil.
  intros H1 H2 Hne Hs.
  destruct H1 as [-> | [-> | [-> | [-> | [-> | []]]]]];
    destruct H2 as [-> | [-> | [-> | [-> | [-> | []]]]]];
    try done; by other_suffix Hs.
Qed.

(** ** Unique names *)

Lemma validateUniqueProfileNames_nil_iff (profiles : list AgentPoolProfile) :
  validateUniqueProfileNames profiles = Nil <-> NoDup (map Name profiles).
Proof.
  unfold validateUniqueProfileNames.
  destruct (uniqueNamesLoop_spec ∅ [] profiles) as [[Hok Hnd]|Hdup].
  - intros x. rewrite lookup_empty, elem_of_nil. split; [by intros []|done].
  - apply NoDup_nil_2.
  - done.
  - simpl in Hdup. destruct Hdup as (i & n & Hi & Hin & _ & ->).
    split; [done|]. intros Hnd. by destruct (repeated_not_NoDup _ i n Hi Hin).
Qed.




(** ** VNET consistency *)

Lemma customVNETCount_zero_iff (pools : list AgentPoolProfile) :
  customVNETCount pools = 0 <-> Forall (fun p => VnetSubnetID p = "") pools.
Proof.
  induction pools as [|p pools IH]; [done|].
  rewrite customVNETCount_cons, Forall_cons, <- IH.
  pose proof (customVNETCount_bounds pools).
  pose proof (IsCustomVNET_nonempty p) as Hp.
  destruct (IsCustomVNET p).
  - split; [lia|]. intros [Hempty _]. by apply Hp in Hempty.
  - split; [|intros [_ ?]; lia]. intros Hc. split; [|lia].
    destruct (VnetSubnetID p); [done|]. by destruct Hp as [_ Hp]; discriminate Hp.
Qed.

Lemma customVNETCount_all_iff (pools : list AgentPoolProfile) :
  customVNETCount pools = Z.of_nat (length pools)
  <-> Forall (fun p => VnetSubnetID p <> "") pools.
Proof.
  induction pools as [|p pools IH]; [done|].
  rewrite customVNETCount_cons, Forall_cons, <- IH. simpl length.
  pose proof (customVNETCount_bounds pools).
  pose proof (IsCustomVNET_nonempty p) as Hp.
  destruct (IsCustomVNET p).
  - split; [|intros [_ ?]; lia]. intros Hc. split; [by apply Hp|lia].
  - split; [lia|]. intros [Hne _]. by apply Hp in Hne.
Qed.

Lemma decomposeLoop_inr_Forall (pools : list AgentPoolProfile)
    (m m' : vnetMaps) :
  decomposeLoop pools m = inr m' -> Forall decomposes pools.
Proof.
  revert m; induction pools as [|p pools IH]; intros m H; [constructor|].
  simpl in H. unfold decomposes at 1.
  destruct (GetVNETSubnetIDComponents (VnetSubnetID p))
    as [[[[sub rg] vnet] subnet] [err|]] eqn:Hd; [done|].
  constructor; [by rewrite Hd|by apply (IH _ H)].
Qed.


Lemma validateVNET_nil_iff (a : Properties) :
  validateVNET a = Nil <->
  Forall (fun p => VnetSubnetID p = "") (AgentPoolProfiles a)
  \/ Forall (fun p => VnetSubnetID p <> "" /\ decomposes p) (AgentPoolProfiles a).
Proof.
  rewrite validateVNET_cases. cbv zeta.
  set (pools := AgentPoolProfiles a).
  pose proof (customVNETCount_zero_iff pools) as Hzero.
  pose proof (customVNETCount_all_iff pools) as Hall.
  pose proof (customVNETCount_pos pools) as Hpos.
  pose proof (customVNETCount_bounds pools) as Hb.
  rewrite Forall_and, <- Hzero, <- Hall.
  destruct (customVNETCount pools =? 0) eqn:H0;
    [apply Z.eqb_eq in H0|apply Z.eqb_neq in H0].
  { destruct (existsb IsCustomVNET pools); [lia|]. simpl. split; auto. }
  destruct (customVNETCount pools =? Z.of_nat (length pools)) eqn:Ht;
    [apply Z.eqb_eq in Ht|apply Z.eqb_neq in Ht]; simpl.
  2: { split; [done|]. intros [?|[? _]]; done. }
  destruct (existsb IsCustomVNET pools); [|lia].
  destruct (decomposeLoop pools emptyMaps) as [e|m] eqn:Hloop.
  - split; [done|]. intros [?|[_ Hok]]; [done|].
    destruct (decomposeLoop_success pools emptyMaps Hok). congruence.
  - split; [|done]. intros _. right. split; [done|].
    by apply (decomposeLoop_inr_Forall pools emptyMaps m).
Qed.


(** X7. Acceptance by the two collection validators does not depend on the
    order of the pools: a reordering of an accepted collection is accepted
    by the uniqueness validator and by the VNET validator.  (Which error a
    rejected collection gets does depend on the order.) *)
Theorem collection_validators_order_independent (a a' : Properties) :
  AgentPoolProfiles a ≡ₚ AgentPoolProfiles a' ->
  (validateUniqueProfileNames (AgentPoolProfiles a) = Nil
   <-> validateUniqueProfileNames (AgentPoolProfiles a') = Nil)
  /\ (validateVNET a = Nil <-> validateVNET a' = Nil).
Proof.
  intros Hperm. split.
  - rewrite !validateUniqueProfileNames_nil_iff.
    by rewrite (Permutation_map Name Hperm).
  - rewrite !validateVNET_nil_iff, !Forall_forall.
    split; (intros [H|H]; [left|right]); intros p Hp; apply H;
      first [by rewrite Hperm|by rewrite <- Hperm].
Qed.

(** X9. When every identifier decomposes, the second loop of
    [validateVNET] ends with maps that hold, under every key, the number of
    pools with that subscription, that resource group and that network;
    [validateVNET] then drops the maps. *)
Theorem decomposeLoop_occurrences (pools : list AgentPoolProfile) :
  Forall decomposes pools ->
  exists m,
    decomposeLoop pools emptyMaps = inr m
    /\ forall k,
         default 0 (subIDMap m !! k) = occurrences subscriptionOf k pools
         /\ default 0 (resourceGroupMap m !! k)
            = occurrences resourceGroupOf k pools
         /\ default 0 (agentVNETMap m !! k) = occurrences networkOf k pools.
Proof.
  intros Hok. destruct (decomposeLoop_success pools emptyMaps Hok) as [m Hm].
  exists m. split; [done|]. intros k.
  destruct (decomposeLoop_counts pools emptyMaps m k Hm) as (Hs & Hr & Hv).
  simpl in Hs, Hr, Hv. rewrite lookup_empty in Hs, Hr, Hv. simpl in Hs, Hr, Hv.
  by rewrite Hs, Hr, Hv.
Qed.

(** ** The orchestrator *)

Lemma of_error_nil (e : option string) : of_error e = Nil <-> e = None.
Proof. by destruct e. Qed.


Lemma name_ok_valid (pool : AgentPoolProfile) :
  name_ok pool <-> valid_pool_name (Name pool).
Proof.
  unfold name_ok, AgentPoolProfile_Validate.
  rewrite validatePoolName_cases, <- re_match_poolNameRegex.
  by destruct (re_match poolNameRegex (Name pool)).
Qed.


Lemma linux_stage_nil (o : option LinuxProfile) :
  match o with Some l => LinuxProfile_Validate l | None => Nil end = Nil
  <-> forall l, o = Some l ->
        exists key0 rest,
          PublicKeys (SSH l) = key0 :: rest /\ KeyData key0 <> "".
Proof.
  destruct o as [l|]; [|by split]. unfold LinuxProfile_Validate.
  unfold validate_Var_required.
  destruct (PublicKeys (SSH l)) as [|key0 rest] eqn:Hkeys.
  - split; [done|]. intros H.
    destruct (H l eq_refl) as (? & ? & ? & _). congruence.
  - destruct (String.eqb_spec (KeyData key0) "") as [Hk|Hk].
    + split; [done|]. intros H.
      destruct (H l eq_refl) as (k0 & r & Hk0 & Hne).
      rewrite Hkeys in Hk0. by injection Hk0 as <- <-.
    + split; [|done]. intros _ ? [= <-]. by exists key0, rest.
Qed.


(** X4. What acceptance means.  [Properties.Validate] returns [nil]
    exactly when the constraint engine and the DNS-prefix check report
    nothing, the pool names are pairwise distinct and each is a valid pool
    name, a Linux profile, if present, has a first SSH key with non-empty
    key data, and either no pool has a [vnetSubnetID] or every pool has one
    that decomposes. *)
Theorem Properties_Validate_accepts_iff (a : Properties) :
  let pools := AgentPoolProfiles a in
  Properties_Validate a = Nil <->
  validate_Struct a = None
  /\ ValidateDNSPrefix (DNSPrefix a) = None
  /\ NoDup (map Name pools)
  /\ Forall (fun p => valid_pool_name (Name p)) pools
  /\ (forall l, LinuxProfilePtr a = Some l ->
        exists key0 rest,
          PublicKeys (SSH l) = key0 :: rest /\ KeyData key0 <> "")
  /\ (Forall (fun p => VnetSubnetID p = "") pools
      \/ Forall (fun p => VnetSubnetID p <> "" /\ decomposes p) pools).
Proof.
  intros pools. unfold Properties_Validate. fold pools.
  destruct (validate_Struct a) as [e|].
  { split; [intros H; by apply handleValidationErrors_not_nil in H|].
    by intros [? _]. }
  rewrite !and_then_nil, of_error_nil, validateUniqueProfileNames_nil_iff,
    validatePoolsLoop_nil, linux_stage_nil, validateVNET_nil_iff.
  fold pools.
  assert (Forall name_ok pools
          <-> Forall (fun p => valid_pool_name (Name p)) pools) as ->.
  { rewrite !Forall_forall. split; intros H p Hp; by apply name_ok_valid, H. }
  split; [by intros ?|by intros [_ ?]].
Qed.


End Validators.

(** * The validators on concrete configurations *)

(** The validators with the stand-in collaborators and with sample values
    for the constants: agent counts in [1,100], disk sizes in [30,1023]. *)
Abbreviation classify :=
  (handleValidationErrors 1 100 30 1023 "ManagedDisks" sample_fmt_errors).

Abbreviation validate :=
  (Properties_Validate 1 100 30 1023 "ManagedDisks" sample_fmt_errors
     sample_engine sample_dns sample_decompose).

Abbreviation subnetA := (subnet_of "subA" "rg1" "vnet1" "default").
Abbreviation subnetB := (subnet_of "subB" "rg2" "vnet2" "default").

(** ** Scenarios *)

Example classify_count :
  classify [{| Namespace := "Properties.AgentPoolProfiles[2].Count";
               Value := VInt 500 |}]
  = Error "AgentPoolProfile count needs to be in the range [1,100]".
Proof. vm_compute. reflexivity. Qed.

Example classify_disk_size :
  classify [{| Namespace := "Properties.AgentPoolProfiles[0].OSDiskSizeGB";
               Value := VInt 5000 |}]
  = Error "Invalid os disk size of 5000 specified.  The range of valid values are [30, 1023]".
Proof. vm_compute. reflexivity. Qed.

Example validate_duplicate_names :
  validate (sample_properties [sample_pool "pool1" ""; sample_pool "pool1" ""] None)
  = Error "profile name 'pool1' already exists, profile names must be unique across pools".
Proof. vm_compute. reflexivity. Qed.

Example validate_bad_name :
  validate (sample_properties [sample_pool "Pool-1" ""] None)
  = Error "pool name 'Pool-1' is invalid. A pool name must start with a lowercase letter, have max length of 12, and only have characters a-z0-9".
Proof. vm_compute. reflexivity. Qed.

Example validate_engine_first :
  validate (sample_properties
              [{| Name := "Pool-1"; Count := 0; VMSize := "Standard_D2_v2";
                  OSDiskSizeGB := 0; StorageProfile := "";
                  VnetSubnetID := "" |}] None)
  = Error "AgentPoolProfile count needs to be in the range [1,100]".
Proof. vm_compute. reflexivity. Qed.

Example validate_accepts :
  validate (sample_properties
              [sample_pool "pool1" subnetA; sample_pool "pool2" subnetB]
              (Some {| SSH := {| PublicKeys := [{| KeyData := "ssh-rsa AAAA" |}] |} |}))
  = Nil.
Proof. vm_compute. reflexivity. Qed.

Example validatePoolName_twelve :
  validatePoolName "abcdefghijkl" = Nil /\ validatePoolName "abcdefghijklm" <> Nil
  /\ validatePoolName "" <> Nil /\ validatePoolName "1pool" <> Nil.
Proof. repeat split; discriminate. Qed.

(** ** Instances of the theorems, and the inputs that separate the code
       from the stronger statements *)

(** The three collections of C1: no custom pool, three custom pools, one
    custom pool out of three. *)
Lemma validateVNET_all_or_nothing_witness :
  validateVNET sample_decompose
    (sample_properties
       [sample_pool "a" ""; sample_pool "b" ""; sample_pool "c" ""] None)
  = Nil
  /\ validateVNET sample_decompose
       (sample_properties
          [sample_pool "a" subnetA; sample_pool "b" subnetA;
           sample_pool "c" subnetA] None)
     = Nil
  /\ validateVNET sample_decompose
       (sample_properties
          [sample_pool "a" ""; sample_pool "b" subnetA; sample_pool "c" ""]
          None)
     = Error mixedVNETError.
Proof.
  split; [|split].
  - pose proof (validateVNET_all_or_nothing sample_decompose
                  (sample_properties
                     [sample_pool "a" ""; sample_pool "b" "";
                      sample_pool "c" ""] None)) as H.
    cbv zeta in H. destruct H as (_ & Hzero & _). apply Hzero. reflexivity.
  - pose proof (validateVNET_all_or_nothing sample_decompose
                  (sample_properties
                     [sample_pool "a" subnetA; sample_pool "b" subnetA;
                      sample_pool "c" subnetA] None)) as H.
    cbv zeta in H. destruct H as (_ & _ & Hall & _).
    apply Hall; [reflexivity|]. repeat constructor.
  - pose proof (validateVNET_all_or_nothing sample_decompose
                  (sample_properties
                     [sample_pool "a" ""; sample_pool "b" subnetA;
                      sample_pool "c" ""] None)) as H.
    cbv zeta in H. destruct H as (Hmixed & _). apply Hmixed.
    split; discriminate.
Defined.

(** C1 as stated fails on two counts.  The error of the mixed case is not
    the quoted text; and a single custom pool, for which the count equals
    the number of pools, is rejected when its identifier does not
    decompose. *)
Lemma validateVNET_rejection_cases :
  validateVNET sample_decompose
    (sample_properties
       [sample_pool "a" ""; sample_pool "b" subnetA; sample_pool "c" ""] None)
  = Error mixedVNETError
  /\ mixedVNETError <>
     "Multiple VNET Subnet configurations specified; each pool must specify a custom VNET Subnet, or none at all."
  /\ customVNETCount [sample_pool "a" "not-a-subnet-id"]
     = Z.of_nat (length [sample_pool "a" "not-a-subnet-id"])
  /\ validateVNET sample_decompose
       (sample_properties [sample_pool "a" "not-a-subnet-id"] None)
     = Error "Unable to parse vnetSubnetID".
Proof.
  repeat split; try (vm_compute; reflexivity). discriminate.
Qed.

(** Two custom pools on different subscriptions, resource groups and
    networks are accepted; with a second identifier that does not decompose
    the error is the decomposer's. *)
Lemma validateVNET_decomposition_witness :
  validateVNET sample_decompose
    (sample_properties
       [sample_pool "a" subnetA; sample_pool "b" subnetB] None)
  = Nil
  /\ validateVNET sample_decompose
       (sample_properties
          [sample_pool "a" subnetA; sample_pool "b" "not-a-subnet-id";
           sample_pool "c" "/subscriptions/x"] None)
     = Error "Unable to parse vnetSubnetID".
Proof.
  split.
  - pose proof (validateVNET_decomposition sample_decompose
                  (sample_properties
                     [sample_pool "a" subnetA; sample_pool "b" subnetB] None)
                  eq_refl eq_refl) as [_ Hok].
    apply Hok. repeat constructor.
  - pose proof (validateVNET_decomposition sample_decompose
                  (sample_properties
                     [sample_pool "a" subnetA;
                      sample_pool "b" "not-a-subnet-id";
                      sample_pool "c" "/subscriptions/x"] None)
                  eq_refl eq_refl) as [Hfail _].
    apply (Hfail 1%nat (sample_pool "b" "not-a-subnet-id"));
      [reflexivity|reflexivity|]. repeat constructor.
Defined.

(** A configuration without pools. *)
Lemma empty_pools_accepted_witness :
  validateUniqueProfileNames [] = Nil
  /\ validateVNET sample_decompose (sample_properties [] None) = Nil.
Proof.
  destruct (empty_pools_accepted sample_decompose (sample_properties [] None)
              eq_refl) as (Hu & Hv & _).
  split; [exact Hu|exact Hv].
Defined.

(** C2 as stated fails on three inputs.  A credential namespace without
    its [Properties.] root is not caught; a namespace under the agent pools
    that ends in [VMSize] without the dot is reported missing, not sent to
    the catch-all; a disk size that is not an [int] gives no message. *)
Lemma handleValidationErrors_corner_cases :
  classify [{| Namespace := "ServicePrincipalProfile.ClientID";
               Value := VString "" |}]
  = Error "Namespace ServicePrincipalProfile.ClientID is not caught, ServicePrincipalProfile.ClientID"
  /\ classify [{| Namespace := "Properties.AgentPoolProfiles[0].OSVMSize";
                  Value := VString "" |}]
     = Error "missing Properties.AgentPoolProfiles[0].OSVMSize"
  /\ classify [{| Namespace := "Properties.AgentPoolProfiles[0].OSDiskSizeGB";
                  Value := VString "large" |}]
     = Panic TypeAssertionFailed.
Proof. repeat split; vm_compute; reflexivity. Qed.

(** An [int] disk size is classified; a [bool] storage profile panics. *)
Lemma handleValidationErrors_value_types_witness :
  (exists msg,
     classify [{| Namespace := "Properties.AgentPoolProfiles[0].OSDiskSizeGB";
                  Value := VInt 5000 |}] = Error msg)
  /\ classify [{| Namespace := "Properties.AgentPoolProfiles[1].StorageProfile";
                  Value := VBool true |}]
     = Panic TypeAssertionFailed.
Proof.
  split.
  - pose proof (handleValidationErrors_value_types 1 100 30 1023
                  "ManagedDisks" sample_fmt_errors
                  {| Namespace := "Properties.AgentPoolProfiles[0].OSDiskSizeGB";
                     Value := VInt 5000 |} [] eq_refl) as [Hdisk _].
    destruct (Hdisk eq_refl) as [Hint _]. apply (Hint 5000). reflexivity.
  - pose proof (handleValidationErrors_value_types 1 100 30 1023
                  "ManagedDisks" sample_fmt_errors
                  {| Namespace := "Properties.AgentPoolProfiles[1].StorageProfile";
                     Value := VBool true |} [] eq_refl) as [_ Hstorage].
    destruct (Hstorage eq_refl) as [_ Hother]. apply Hother. discriminate.
Defined.

(** C9 as stated fails: with a value of the other type the classifier
    panics instead of returning an error. *)
Lemma handleValidationErrors_wrong_type_panics :
  classify [{| Namespace := "Properties.AgentPoolProfiles[0].OSDiskSizeGB";
               Value := VString "5000" |}]
  = Panic TypeAssertionFailed
  /\ classify [{| Namespace := "Properties.AgentPoolProfiles[0].StorageProfile";
                  Value := VInt 1 |}]
     = Panic TypeAssertionFailed.
Proof. split; vm_compute; reflexivity. Qed.

(** C8 as stated fails: on an empty key list the validator panics and
    returns no error. *)
Lemma LinuxProfile_Validate_no_keys_panics :
  LinuxProfile_Validate {| SSH := {| PublicKeys := [] |} |}
  = Panic IndexOutOfRange
  /\ ~ (exists msg,
          LinuxProfile_Validate {| SSH := {| PublicKeys := [] |} |} = Error msg).
Proof. split; [reflexivity|]. intros [msg H]. discriminate. Qed.

(** A credential namespace followed by a second violation, a missing
    [vmSize], and a namespace that no case handles. *)
Lemma handleValidationErrors_policy_witness :
  classify [{| Namespace := "Properties.WindowsProfile.AdminPassword";
               Value := VString "" |};
            {| Namespace := "Properties.AgentPoolProfiles[0].Count";
               Value := VInt 0 |}]
  = Error "missing Properties.WindowsProfile.AdminPassword"
  /\ classify [{| Namespace := "Properties.AgentPoolProfiles[3].VMSize";
                  Value := VString "" |}]
     = Error "missing Properties.AgentPoolProfiles[3].VMSize"
  /\ classify [{| Namespace := "Properties.DNSPrefix"; Value := VString "" |};
               {| Namespace := "Properties.AgentPoolProfiles[0].Count";
                  Value := VInt 0 |}]
     = Error "Namespace Properties.DNSPrefix is not caught, Properties.DNSPrefix; Properties.AgentPoolProfiles[0].Count".
Proof.
  split; [|split].
  - pose proof (handleValidationErrors_policy 1 100 30 1023 "ManagedDisks"
                  sample_fmt_errors
                  {| Namespace := "Properties.WindowsProfile.AdminPassword";
                     Value := VString "" |}
                  [{| Namespace := "Properties.AgentPoolProfiles[0].Count";
                      Value := VInt 0 |}]) as H.
    cbv zeta in H. destruct H as (Hcred & _). apply Hcred.
    apply credential_test. reflexivity.
  - pose proof (handleValidationErrors_policy 1 100 30 1023 "ManagedDisks"
                  sample_fmt_errors
                  {| Namespace := "Properties.AgentPoolProfiles[3].VMSize";
                     Value := VString "" |} []) as H.
    cbv zeta in H. destruct H as (_ & Hmissing & _).
    apply Hmissing; [reflexivity|right; reflexivity].
  - pose proof (handleValidationErrors_policy 1 100 30 1023 "ManagedDisks"
                  sample_fmt_errors
                  {| Namespace := "Properties.DNSPrefix"; Value := VString "" |}
                  [{| Namespace := "Properties.AgentPoolProfiles[0].Count";
                      Value := VInt 0 |}]) as H.
    cbv zeta in H. destruct H as (_ & _ & _ & _ & _ & Hother & _).
    apply Hother; [|left; reflexivity].
    intros Hin. apply credential_test in Hin. discriminate.
Defined.

(** A duplicate name is reported before an invalid name; an invalid name
    is reported as the name validator returns it. *)
Lemma Properties_Validate_sequence_witness :
  validate (sample_properties
              [sample_pool "pool1" ""; sample_pool "Pool-2" "";
               sample_pool "pool1" ""] None)
  = validateUniqueProfileNames
      [sample_pool "pool1" ""; sample_pool "Pool-2" ""; sample_pool "pool1" ""]
  /\ validate (sample_properties
                 [sample_pool "pool1" ""; sample_pool "Pool-2" ""] None)
     = validatePoolName "Pool-2".
Proof.
  split.
  - pose proof (Properties_Validate_sequence 1 100 30 1023 "ManagedDisks"
                  sample_fmt_errors sample_engine sample_dns sample_decompose
                  (sample_properties
                     [sample_pool "pool1" ""; sample_pool "Pool-2" "";
                      sample_pool "pool1" ""] None)) as H.
    cbv zeta in H. destruct H as (_ & Hengine & _).
    destruct (Hengine eq_refl) as [_ Hdns].
    destruct (Hdns eq_refl) as [Hunique _]. apply Hunique. discriminate.
  - pose proof (Properties_Validate_sequence 1 100 30 1023 "ManagedDisks"
                  sample_fmt_errors sample_engine sample_dns sample_decompose
                  (sample_properties
                     [sample_pool "pool1" ""; sample_pool "Pool-2" ""] None)) as H.
    cbv zeta in H. destruct H as (_ & Hengine & _).
    destruct (Hengine eq_refl) as [_ Hdns].
    destruct (Hdns eq_refl) as [_ Hunique].
    destruct (Hunique eq_refl) as [Hnames _].
    apply (Hnames 1%nat (sample_pool "Pool-2" "")); [reflexivity| |discriminate].
    repeat constructor.
Defined.

(** * Further properties: the decomposer as seen by [validateVNET] *)



(** ** Instances *)


(** A namespace that ends in [.Count] does not end in [.Name]. *)
Lemma classifierSuffixes_exclusive_witness :
  HasSuffix "Properties.AgentPoolProfiles[0].Count" ".Name" = false.
Proof.
  apply (classifierSuffixes_exclusive _ ".Count" ".Name");
    [repeat constructor|repeat constructor|discriminate|reflexivity].
Defined.

(** Swapping two pools changes neither verdict. *)
Lemma collection_validators_order_independent_witness :
  (validateUniqueProfileNames [sample_pool "a" subnetA; sample_pool "b" subnetB]
   = Nil
   <-> validateUniqueProfileNames
         [sample_pool "b" subnetB; sample_pool "a" subnetA] = Nil)
  /\ (validateVNET sample_decompose
        (sample_properties
           [sample_pool "a" subnetA; sample_pool "b" subnetB] None) = Nil
      <-> validateVNET sample_decompose
            (sample_properties
               [sample_pool "b" subnetB; sample_pool "a" subnetA] None) = Nil).
Proof.
  apply (collection_validators_order_independent sample_decompose
           (sample_properties
              [sample_pool "a" subnetA; sample_pool "b" subnetB] None)
           (sample_properties
              [sample_pool "b" subnetB; sample_pool "a" subnetA] None)).
  apply perm_swap.
Defined.

(** Three pools on two subscriptions: the map counts two and one. *)
Lemma decomposeLoop_occurrences_witness :
  exists m,
    decomposeLoop sample_decompose
      [sample_pool "a" subnetA; sample_pool "b" subnetB; sample_pool "c" subnetA]
      emptyMaps = inr m
    /\ default 0 (subIDMap m !! "subA") = 2
    /\ default 0 (subIDMap m !! "subB") = 1
    /\ default 0 (agentVNETMap m !! "vnet3") = 0.
Proof.
  destruct (decomposeLoop_occurrences sample_decompose
              [sample_pool "a" subnetA; sample_pool "b" subnetB;
               sample_pool "c" subnetA]) as (m & Hm & Hk).
  - repeat constructor.
  - exists m. split; [exact Hm|].
    destruct (Hk "subA") as (-> & _). destruct (Hk "subB") as (-> & _).
    destruct (Hk "vnet3") as (_ & _ & ->). repeat split.
Defined.

(** ** Scenarios of the further properties *)

Example classify_empty_list : classify [] = Panic IndexOutOfRange.
Proof. reflexivity. Qed.

Example validate_no_key_panics :
  validate (sample_properties [sample_pool "pool1" ""]
              (Some {| SSH := {| PublicKeys := [] |} |}))
  = Panic IndexOutOfRange.
Proof. vm_compute. reflexivity. Qed.

Example validate_second_key_unchecked :
  validate (sample_properties [sample_pool "pool1" ""]
              (Some {| SSH := {| PublicKeys :=
                         [{| KeyData := "ssh-rsa AAAA" |};
                          {| KeyData := "" |}] |} |}))
  = Nil.
Proof. vm_compute. reflexivity. Qed.
